(** * DigiMark, static/js/main.js: file-input validation and banner auto-close

    A shallow embedding of the page script [static/js/main.js]:
    the [DOMContentLoaded] handler, which registers the [change]
    listeners of the two upload controls and schedules the auto-close
    timers of the notification banners, and [validateFileInput].

    JavaScript values are modelled as the script uses them:
    - a string is a [string]; [split], [pop], [includes] and [join] are
      the methods of [String.prototype] and [Array.prototype] the script
      calls, written out on [string] and [list string];
    - [toLowerCase] is the platform's case mapping; the development is
      generic in it (class [StringPrototype]) and an ASCII instance is
      given to run the script on concrete names;
    - a [File] has a [name] and a [size] in bytes (an unsigned integer);
    - the script's effects (the [alert] dialogs, the write to
      [input.value], listener and timer registration, [click]) are steps
      of a state monad with exceptions, [JS]. *)

From Stdlib Require Import NArith Ascii String.
From stdpp Require Import base strings list gmap.

Open Scope string_scope.

(* ===================================================================== *)
(** ** Completions and the [JS] monad *)
(* ===================================================================== *)

(** The exceptions the platform can raise at the operations the script
    performs: a member access on [null]/[undefined] ([TypeError]) and a
    write of a non-empty string to the [value] of a file control
    ([InvalidStateError]). *)
Inductive Exception : Type :=
| TypeError
| InvalidStateError.

Inductive Completion (A : Type) : Type :=
| Normal (a : A)
| Throw (e : Exception).
Arguments Normal {A} a.
Arguments Throw {A} e.

(** A computation over a mutable state [St]: it completes normally with a
    value or abruptly with an exception; the state written so far is kept
    in both cases. *)
Definition JS (St A : Type) : Type := St -> Completion A * St.

Definition ret {St A} (a : A) : JS St A := fun s => (Normal a, s).

Definition throw {St A} (e : Exception) : JS St A := fun s => (Throw e, s).

Definition bind {St A B} (m : JS St A) (k : A -> JS St B) : JS St B :=
  fun s =>
    match m s with
    | (Normal a, s') => k a s'
    | (Throw e, s') => (Throw e, s')
    end.

Definition liftCompletion {St A} (c : Completion A) : JS St A :=
  fun s => (c, s).

Declare Scope js_scope.
Delimit Scope js_scope with js.
Notation "'let*' x ':=' m 'in' k" := (bind m (fun x => k))
  (at level 10, x name, m at level 100, k at level 200) : js_scope.
Notation "m '>>' k" := (bind m (fun _ => k))
  (at level 100, k at level 200, right associativity) : js_scope.

(** [if (c) { body }] with no [else]. *)
Definition when {St} (c : bool) (body : JS St unit) : JS St unit :=
  if c then body else ret tt.

(** [array.forEach(callback)]. *)
Fixpoint forEach {St A} (array : list A) (callback : A -> JS St unit) : JS St unit :=
  match array with
  | [] => ret tt
  | x :: rest => bind (callback x) (fun _ => forEach rest callback)
  end.

(** A method call [o.m(...)] on a value that may be [null] or
    [undefined]: a [TypeError] when it is. *)
Definition member {St A B} (o : option A) (m : A -> JS St B) : JS St B :=
  match o with
  | Some x => m x
  | None => throw TypeError
  end.

(** Truthiness of an object reference or [null]/[undefined]. *)
Definition truthy {A} (o : option A) : bool :=
  match o with
  | Some _ => true
  | None => false
  end.

(* ===================================================================== *)
(** ** Strings and arrays *)
(* ===================================================================== *)

(** [String.prototype.toLowerCase] is the platform's. *)
Class StringPrototype : Type := { toLowerCase : string -> string }.

(** The case mapping restricted to the ASCII letters, to run the script
    on concrete file names. *)
Definition asciiToLower (c : ascii) : ascii :=
  let n := N_of_ascii c in
  if ((65 <=? n) && (n <=? 90))%N then ascii_of_N (n + 32) else c.

Fixpoint asciiToLowerCase (s : string) : string :=
  match s with
  | EmptyString => EmptyString
  | String c rest => String (asciiToLower c) (asciiToLowerCase rest)
  end.

Definition asciiStrings : StringPrototype := {| toLowerCase := asciiToLowerCase |}.

(** [s.split(sep)] for a separator of one character: the pieces of [s]
    between the occurrences of [sep], in order; never the empty array. *)
Fixpoint split (sep : ascii) (s : string) : list string :=
  match s with
  | EmptyString => [EmptyString]
  | String c rest =>
      if Ascii.eqb c sep then EmptyString :: split sep rest
      else match split sep rest with
           | [] => [String c EmptyString]
           | piece :: pieces => String c piece :: pieces
           end
  end.

(** [array.pop()] as the script uses it, for its value only: the last
    element, [undefined] for the empty array. *)
Definition pop (array : list string) : option string := last array.

(** [array.includes(x)] on strings. *)
Fixpoint includes (array : list string) (x : string) : bool :=
  match array with
  | [] => false
  | y :: rest => String.eqb y x || includes rest x
  end.

(** [array.join(sep)]. *)
Definition join (sep : string) (array : list string) : string :=
  String.concat sep array.

(* ===================================================================== *)
(** ** The page *)
(* ===================================================================== *)

Record File : Type := { name : string; size : N }.

(** The listener registered by the script:
    [function() { validateFileInput(this, allowedExtensions); }]. *)
Inductive Listener : Type :=
| ValidateThis (allowedExtensions : list string).

(** An [<input type="file">]: its [files] list and its registered event
    listeners, each with its event type. *)
Record HTMLInputElement : Type := {
  files : list File;
  listeners : list (string * Listener)
}.

(** What [validateFileInput] can touch: the control passed as [input] and
    the window's [alert] dialogs, oldest first. *)
Record Scope : Type := {
  input : HTMLInputElement;
  alerts : list string
}.

(** [input.files[i]]. *)
Definition filesAt (i : nat) : JS Scope (option File) :=
  fun s => (Normal (files (input s) !! i), s).

(** [window.alert(message)]. *)
Definition alert (message : string) : JS Scope unit :=
  fun s => (Normal tt, {| input := input s; alerts := alerts s ++ [message] |}).

(** [input.value = v] on a file control: the empty string empties the
    list of selected files, any other string raises [InvalidStateError]. *)
Definition setValue (v : string) : JS Scope unit :=
  fun s =>
    if String.eqb v "" then
      (Normal tt,
       {| input := {| files := []; listeners := listeners (input s) |};
          alerts := alerts s |})
    else (Throw InvalidStateError, s).

Definition maxSize : N := 16 * 1024 * 1024.

Definition typeAlert (allowedExtensions : list string) : string :=
  "Invalid file type. Allowed types: " +:+ join ", " allowedExtensions.

Definition sizeAlert : string := "File size exceeds the maximum limit of 16MB.".

Section Validation.
Context `{StringPrototype}.
Local Open Scope js_scope.

(** [fileName.split('.').pop().toLowerCase()]. *)
Definition fileExtensionOf (fileName : string) : Completion string :=
  match pop (split "." fileName) with
  | Some piece => Normal (toLowerCase piece)
  | None => Throw TypeError
  end.

Definition validateFileInput (allowedExtensions : list string) : JS Scope unit :=
  let* file := filesAt 0 in
  match file with
  | None => ret tt
  | Some file =>
      let fileName := name file in
      let* fileExtension := liftCompletion (fileExtensionOf fileName) in
      when (negb (includes allowedExtensions fileExtension))
           (alert (typeAlert allowedExtensions) >> setValue "") >>
      when (maxSize <? size file)%N
           (alert sizeAlert >> setValue "")
  end.
End Validation.

(* ===================================================================== *)
(** ** The window: controls, banners, timers *)
(* ===================================================================== *)

(** A [.btn-close] element. The script only ever calls [click()] on it;
    what the click then does is the toolkit's listener, not this script,
    so the element records how often it was activated. *)
Record Button : Type := { clicks : nat }.

(** An element of class [alert]: its text and its first [.btn-close]
    descendant, if it has one, as a reference into the [buttons] of the
    page. A banner nested in another one is a banner of its own, and the
    outer one can find the close button of the inner one: two banners can
    hold the same reference. *)
Record Banner : Type := {
  message : string;
  closeButton : option nat
}.

(** The closure passed to [setTimeout]; it captures the banner [alert] of
    the [forEach] iteration that created it. *)
Inductive TimerCallback : Type :=
| AutoClose (alert : nat).

Record Timer : Type := {
  callback : TimerCallback;
  delay : N
}.

(** The state of the page. Controls are found by their [id]; a banner is
    referred to by its position in document order, a close button by its
    position among the [.btn-close] elements. *)
Record Window : Type := {
  elements : gmap string HTMLInputElement;
  banners : list Banner;
  buttons : list Button;
  timers : list Timer;
  dialogs : list string
}.

(** [document.getElementById(id)]: a reference to the control, or [null]. *)
Definition getElementById (id : string) : JS Window (option string) :=
  fun w => (Normal (match elements w !! id with Some _ => Some id | None => None end), w).

Definition addListener (l : string * Listener) (el : HTMLInputElement) : HTMLInputElement :=
  {| files := files el; listeners := listeners el ++ [l] |}.

(** [target.addEventListener(type, listener)]. *)
Definition addEventListener (target : string) (type : string) (listener : Listener)
  : JS Window unit :=
  fun w =>
    (Normal tt,
     {| elements := alter (addListener (type, listener)) target (elements w);
        banners := banners w;
        buttons := buttons w;
        timers := timers w;
        dialogs := dialogs w |}).

(** [document.querySelectorAll('.alert')]: the banners now in the page. *)
Definition querySelectorAllAlert : JS Window (list nat) :=
  fun w => (Normal (seq 0 (length (banners w))), w).

(** [setTimeout(callback, delay)]. *)
Definition setTimeout (cb : TimerCallback) (ms : N) : JS Window unit :=
  fun w =>
    (Normal tt,
     {| elements := elements w;
        banners := banners w;
        buttons := buttons w;
        timers := timers w ++ [{| callback := cb; delay := ms |}];
        dialogs := dialogs w |}).

(** [banner.querySelector('.btn-close')]: a reference to the first close
    button among the banner's descendants, or [null]. *)
Definition querySelectorBtnClose (banner : nat) : JS Window (option nat) :=
  fun w =>
    (Normal (match banners w !! banner with
             | Some b => closeButton b
             | None => None
             end), w).

Definition clicked (btn : Button) : Button := {| clicks := S (clicks btn) |}.

(** [button.click()]. *)
Definition click (button : nat) : JS Window unit :=
  fun w =>
    (Normal tt,
     {| elements := elements w;
        banners := banners w;
        buttons := alter clicked button (buttons w);
        timers := timers w;
        dialogs := dialogs w |}).

(** The buttons of the page once a closure has clicked what its banner's
    [querySelector] found. *)
Definition press (found : option nat) (bs : list Button) : list Button :=
  match found with
  | Some button => alter clicked button bs
  | None => bs
  end.

Definition sheetExtensions : list string := ["jpg"; "jpeg"; "png"; "pdf"].
Definition keyExtensions : list string := ["jpg"; "jpeg"; "png"; "pdf"; "txt"].

Section Page.
Local Open Scope js_scope.

(** The listener of [DOMContentLoaded]. *)
Definition onDOMContentLoaded : JS Window unit :=
  let* answerSheetInput := getElementById "answer_sheet" in
  let* answerKeyInput := getElementById "answer_key" in
  when (truthy answerSheetInput)
       (member answerSheetInput (fun el =>
          addEventListener el "change" (ValidateThis sheetExtensions))) >>
  when (truthy answerKeyInput)
       (member answerKeyInput (fun el =>
          addEventListener el "change" (ValidateThis keyExtensions))) >>
  let* alerts := querySelectorAllAlert in
  forEach alerts (fun alert => setTimeout (AutoClose alert) 5000).

(** The body of the timer's closure. *)
Definition runTimerCallback (cb : TimerCallback) : JS Window unit :=
  match cb with
  | AutoClose alert =>
      let* closeButton := querySelectorBtnClose alert in
      when (truthy closeButton) (member closeButton click)
  end.
End Page.

(** The timer queue after [ms] milliseconds: the callbacks that are due
    run in the order they were registered, each to completion (an
    exception ends that callback only); the others stay queued. *)
Fixpoint runCallbacks (cbs : list TimerCallback) (w : Window)
  : list (Completion unit) * Window :=
  match cbs with
  | [] => ([], w)
  | cb :: rest =>
      let (c, w1) := runTimerCallback cb w in
      let (cs, w2) := runCallbacks rest w1 in
      (c :: cs, w2)
  end.

Definition isDue (ms : N) (t : Timer) : bool := (delay t <=? ms)%N.

Definition elapse (ms : N) (w : Window) : list (Completion unit) * Window :=
  let due := List.filter (isDue ms) (timers w) in
  let waiting := List.filter (fun t => negb (isDue ms t)) (timers w) in
  runCallbacks (map callback due)
    {| elements := elements w;
       banners := banners w;
       buttons := buttons w;
       timers := map (fun t => {| callback := callback t; delay := delay t - ms |}) waiting;
       dialogs := dialogs w |}.

Section Dispatch.
Context `{StringPrototype}.

(** Calling a registered listener with [this] bound to the control. *)
Definition callListener (l : Listener) : JS Scope unit :=
  match l with
  | ValidateThis allowedExtensions => validateFileInput allowedExtensions
  end.

(** A [change] event on the control [target]: its [change] listeners
    run in registration order, on the control and the window's dialogs. *)
Definition dispatchChange (target : string) : JS Window unit :=
  fun w =>
    match elements w !! target with
    | None => (Normal tt, w)
    | Some el =>
        let ls := map snd (List.filter (fun l => String.eqb (fst l) "change") (listeners el)) in
        let (c, s) := forEach ls callListener {| input := el; alerts := dialogs w |} in
        (c, {| elements := <[target := input s]> (elements w);
               banners := banners w;
               buttons := buttons w;
               timers := timers w;
               dialogs := alerts s |})
    end.

(** The user picks [selection] in the control's file dialog. *)
Definition userSelects (target : string) (selection : list File) : JS Window unit :=
  bind (fun w =>
          (Normal tt,
           {| elements := alter (fun el => {| files := selection; listeners := listeners el |})
                            target (elements w);
              banners := banners w;
              buttons := buttons w;
              timers := timers w;
              dialogs := dialogs w |}))
       (fun _ => dispatchChange target).

(** The constraint of a control on a file: its suffix is one of the
    allowed ones and its size is at most 16,777,216 bytes. *)
Definition acceptable (allowedExtensions : list string) (f : File) : Prop :=
  (exists ext, fileExtensionOf (name f) = Normal ext /\ ext ∈ allowedExtensions)
  /\ (size f <= 16777216)%N.
End Dispatch.

(** Whether the character [c] occurs in [s]. *)
Fixpoint occurs (c : ascii) (s : string) : bool :=
  match s with
  | EmptyString => false
  | String d rest => Ascii.eqb d c || occurs c rest
  end.

(** [needle] is a substring of [s]. *)
Definition mentions (s needle : string) : Prop :=
  exists before after, s = before +:+ needle +:+ after.

(** The outcome of the two checks on a file of suffix [ext]: the control
    once a check has failed, whether one fails, and the dialogs they add. *)
Definition cleared (el : HTMLInputElement) : HTMLInputElement :=
  {| files := []; listeners := listeners el |}.

Definition checksFail (allowedExtensions : list string) (ext : string) (f : File) : bool :=
  negb (includes allowedExtensions ext) || (16777216 <? size f)%N.

Definition newAlerts (allowedExtensions : list string) (ext : string) (f : File) : list string :=
  ((if includes allowedExtensions ext then [] else [typeAlert allowedExtensions])
   ++ (if (16777216 <? size f)%N then [sizeAlert] else []))%list.

(** The timer the script queues for a banner. *)
Definition autoCloseTimer (banner : nat) : Timer :=
  {| callback := AutoClose banner; delay := 5000 |}.

(** A control holding [selection], with no listener yet and no dialog
    shown so far; and the files of the scenarios. *)
Definition selected (selection : list File) : Scope :=
  {| input := {| files := selection; listeners := [] |}; alerts := [] |}.

Definition scanPng : File := {| name := "scan.png"; size := 2 * 1024 * 1024 |}.
Definition scanDocx : File := {| name := "scan.docx"; size := 2 * 1024 * 1024 |}.
Definition keyTxt : File := {| name := "key.txt"; size := 20 * 1024 * 1024 |}.
Definition hugeDocx : File := {| name := "Thesis.DOCX"; size := 20 * 1024 * 1024 |}.

(** A page with the answer-sheet control only, and two banners: one with
    a close button and one without. *)
Definition uploadPage : Window :=
  {| elements := {[ "answer_sheet" := {| files := []; listeners := [] |} ]};
     banners := [ {| message := "Result saved."; closeButton := Some 0%nat |};
                  {| message := "Welcome."; closeButton := None |} ];
     buttons := [ {| clicks := 0 |} ];
     timers := [];
     dialogs := [] |}.

(** A page with a banner nested in another one, which has no close button
    of its own before it: both find the inner banner's button. A third
    banner has its own. *)
Definition nestedPage : Window :=
  {| elements := ∅;
     banners := [ {| message := "Upload failed."; closeButton := Some 0%nat |};
                  {| message := "See the details."; closeButton := Some 0%nat |};
                  {| message := "Signed in."; closeButton := Some 1%nat |} ];
     buttons := [ {| clicks := 0 |}; {| clicks := 0 |} ];
     timers := [];
     dialogs := [] |}.

(* ===================================================================== *)
(** ** Strings and arrays: facts *)
(* ===================================================================== *)

Lemma split_not_empty sep s : split sep s <> [].
Proof.
  destruct s as [|c rest]; simpl; [discriminate|].
  destruct (Ascii.eqb c sep); [discriminate|].
  destruct (split sep rest); discriminate.
Qed.

Lemma split_without_sep sep s : occurs sep s = false -> split sep s = [s].
Proof.
  induction s as [|c rest IH]; simpl; [reflexivity|].
  intros Hocc. apply orb_false_iff in Hocc as [Hc Hrest].
  rewrite Hc, (IH Hrest). reflexivity.
Qed.

Lemma split_at_sep sep a b :
  split sep (a +:+ String sep b) = (split sep a ++ split sep b)%list.
Proof.
  induction a as [|c rest IH]; simpl.
  - rewrite Ascii.eqb_refl. reflexivity.
  - rewrite IH. destruct (Ascii.eqb c sep); [reflexivity|].
    pose proof (split_not_empty sep rest) as Hne.
    destruct (split sep rest); [congruence | reflexivity].
Qed.

Lemma pop_split_defined sep s : exists piece, pop (split sep s) = Some piece.
Proof.
  unfold pop. pose proof (split_not_empty sep s) as Hne.
  destruct (last (split sep s)) as [piece|] eqn:Hlast; [eauto|].
  apply last_None in Hlast. contradiction.
Qed.

Lemma pop_split_suffix sep stem ext :
  occurs sep ext = false ->
  pop (split sep (stem +:+ String sep ext)) = Some ext.
Proof.
  intros Hocc. unfold pop.
  rewrite split_at_sep, (split_without_sep _ _ Hocc), last_snoc. reflexivity.
Qed.

Lemma includes_elem_of array x : includes array x = true <-> x ∈ array.
Proof.
  induction array as [|y rest IH]; simpl.
  - split; [discriminate | intros Hin; inversion Hin].
  - rewrite orb_true_iff, IH, String.eqb_eq, elem_of_cons. intuition congruence.
Qed.

Lemma includes_not_elem_of array x : includes array x = false <-> x ∉ array.
Proof.
  rewrite <- includes_elem_of. destruct (includes array x); intuition congruence.
Qed.

Lemma append_cons (x : ascii) (a b : string) : String x a +:+ b = String x (a +:+ b).
Proof. reflexivity. Qed.

Lemma append_assoc (a b c : string) : (a +:+ b) +:+ c = a +:+ b +:+ c.
Proof.
  induction a as [|x a IH]; [reflexivity|].
  by rewrite !append_cons, IH.
Qed.

Lemma append_empty_r (a : string) : a +:+ "" = a.
Proof.
  induction a as [|x a IH]; [reflexivity|].
  by rewrite append_cons, IH.
Qed.

Lemma mentions_append_l s prefix needle : mentions s needle -> mentions (prefix +:+ s) needle.
Proof.
  intros (before & after & ->). exists (prefix +:+ before), after.
  by rewrite append_assoc.
Qed.

Lemma join_mentions sep array x : x ∈ array -> mentions (join sep array) x.
Proof.
  unfold join. induction array as [|y rest IH]; intros Hin; [inversion Hin|].
  apply elem_of_cons in Hin as [-> | Hin].
  - destruct rest as [|z rest]; simpl.
    + exists "", "". by rewrite append_empty_r.
    + exists "", (sep +:+ String.concat sep (z :: rest)). reflexivity.
  - destruct rest as [|z rest]; [inversion Hin|].
    change (String.concat sep (y :: z :: rest))
      with (y +:+ sep +:+ String.concat sep (z :: rest)).
    do 2 apply mentions_append_l. by apply IH.
Qed.

Lemma typeAlert_mentions allowedExtensions x :
  x ∈ allowedExtensions -> mentions (typeAlert allowedExtensions) x.
Proof. intros Hin. apply mentions_append_l. by apply join_mentions. Qed.

Lemma typeAlert_not_sizeAlert allowedExtensions : typeAlert allowedExtensions <> sizeAlert.
Proof. unfold typeAlert, sizeAlert. simpl. discriminate. Qed.

Lemma maxSize_bytes : maxSize = 16777216%N.
Proof. reflexivity. Qed.

(* ===================================================================== *)
(** ** [validateFileInput]: what one call does *)
(* ===================================================================== *)

Section ValidationFacts.
Context `{StringPrototype}.

Lemma fileExtensionOf_defined fileName :
  exists piece, pop (split "." fileName) = Some piece
                /\ fileExtensionOf fileName = Normal (toLowerCase piece).
Proof.
  destruct (pop_split_defined "." fileName) as [piece Hpop].
  exists piece. unfold fileExtensionOf. by rewrite Hpop.
Qed.

Lemma fileExtensionOf_normal fileName : exists ext, fileExtensionOf fileName = Normal ext.
Proof. destruct (fileExtensionOf_defined fileName) as (piece & _ & Hext). eauto. Qed.

(** One call on a control whose first file is [f]: it completes normally,
    the dialogs of the failed checks are appended in the order type, size,
    and the control is emptied as soon as one check fails. *)
Lemma validateFileInput_run allowedExtensions s f rest ext :
  files (input s) = f :: rest ->
  fileExtensionOf (name f) = Normal ext ->
  validateFileInput allowedExtensions s =
    (Normal tt,
     {| input := if checksFail allowedExtensions ext f then cleared (input s) else input s;
        alerts := (alerts s ++ newAlerts allowedExtensions ext f)%list |}).
Proof.
  intros Hfiles Hext. destruct s as [el log]. simpl in *.
  unfold validateFileInput, bind, filesAt, liftCompletion. simpl.
  rewrite Hfiles. simpl. rewrite Hext.
  unfold checksFail, newAlerts, when, cleared, maxSize, bind, alert, setValue, ret. simpl.
  change (16 * 1024 * 1024)%N with 16777216%N.
  destruct (includes allowedExtensions ext), (16777216 <? size f)%N; simpl;
    rewrite ?app_nil_r, <- ?app_assoc; reflexivity.
Qed.

(* --------------------------------------------------------------------- *)
(** *** The suffix *)

(** C6: the suffix the validation uses is the part of the file name after
    its last ".", lowercased; for a name with no "." it is the whole name,
    lowercased. Here [ext] has no "." and the name is either [ext] itself
    or some [stem], a ".", and [ext]. *)
Theorem fileExtensionOf_suffix fileName stem ext :
  occurs "." ext = false ->
  fileName = ext \/ fileName = stem +:+ "." +:+ ext ->
  fileExtensionOf fileName = Normal (toLowerCase ext).
Proof.
  intros Hocc [-> | ->]; unfold fileExtensionOf.
  - rewrite (split_without_sep _ _ Hocc). reflexivity.
  - change ("." +:+ ext) with (String "." ext).
    rewrite (pop_split_suffix _ _ _ Hocc). reflexivity.
Qed.

(* --------------------------------------------------------------------- *)
(** *** No file selected *)

(** C8: on a control with no file selected the validation does nothing:
    it returns normally, shows no dialog and leaves the control as it is. *)
Theorem validate_no_file allowedExtensions s :
  files (input s) = [] ->
  validateFileInput allowedExtensions s = (Normal tt, s).
Proof.
  intros Hfiles. unfold validateFileInput, bind, filesAt. simpl.
  rewrite Hfiles. reflexivity.
Qed.

(* --------------------------------------------------------------------- *)
(** *** A file selected *)

Lemma scope_eta (s : Scope) : {| input := input s; alerts := alerts s |} = s.
Proof. destruct s; reflexivity. Qed.

Lemma checks_pass allowedExtensions ext f :
  ext ∈ allowedExtensions -> (size f <= 16777216)%N ->
  checksFail allowedExtensions ext f = false /\ newAlerts allowedExtensions ext f = [].
Proof.
  intros Hin Hsize. unfold checksFail, newAlerts.
  apply includes_elem_of in Hin. rewrite Hin.
  apply N.ltb_ge in Hsize. rewrite Hsize. split; reflexivity.
Qed.

Lemma checksFail_false allowedExtensions ext f :
  checksFail allowedExtensions ext f = false ->
  ext ∈ allowedExtensions /\ (size f <= 16777216)%N.
Proof.
  unfold checksFail. intros Hpass. apply orb_false_iff in Hpass as [Htype Hsize].
  apply negb_false_iff, includes_elem_of in Htype. apply N.ltb_ge in Hsize. done.
Qed.

(** C2: a file whose lowercased suffix is in the allowed set and whose
    size is at most 16,777,216 bytes is left selected and no dialog is
    shown: the call returns with the control and the dialogs unchanged. *)
Theorem validate_accepts allowedExtensions s f rest ext :
  files (input s) = f :: rest ->
  fileExtensionOf (name f) = Normal ext ->
  ext ∈ allowedExtensions ->
  (size f <= 16777216)%N ->
  validateFileInput allowedExtensions s = (Normal tt, s).
Proof.
  intros Hfiles Hext Hin Hsize.
  rewrite (validateFileInput_run _ _ _ _ _ Hfiles Hext).
  destruct (checks_pass _ _ _ Hin Hsize) as [-> ->].
  by rewrite app_nil_r, scope_eta.
Qed.

(** C1: after the validation of a control with a selected file, the
    control holds either its original selection, whose file then has an
    allowed suffix and at most 16,777,216 bytes, or no file at all. The
    file it presents ([files[0]]) is never one that violates a constraint,
    and for a selection of one file no retained file does. *)
Theorem validate_keeps_valid_or_clears allowedExtensions s f rest :
  files (input s) = f :: rest ->
  exists s',
    validateFileInput allowedExtensions s = (Normal tt, s') /\
    ((input s' = input s /\ acceptable allowedExtensions f) \/ files (input s') = []) /\
    (forall g, files (input s') !! 0%nat = Some g -> g = f /\ acceptable allowedExtensions g) /\
    (rest = [] -> Forall (acceptable allowedExtensions) (files (input s'))).
Proof.
  intros Hfiles. destruct (fileExtensionOf_normal (name f)) as [ext Hext].
  eexists. split; [apply (validateFileInput_run _ _ _ _ _ Hfiles Hext)|]. simpl.
  destruct (checksFail allowedExtensions ext f) eqn:Hchecks; simpl.
  - split; [by right|]. split; [intros g Hg; inversion Hg | intros _; constructor].
  - apply checksFail_false in Hchecks as [Hin Hsize].
    assert (acceptable allowedExtensions f) as Hok by (split; [eauto | done]).
    split; [by left|]. rewrite Hfiles. split.
    + intros g Hg. simpl in Hg. by simplify_eq.
    + intros ->. constructor; [exact Hok | constructor].
Qed.

(** C3, as amended: a file whose lowercased suffix is not in the allowed
    set is deselected and exactly one type dialog is shown, which
    enumerates the allowed suffixes. It is the only dialog when the file
    has at most 16,777,216 bytes; the size dialog follows it otherwise. *)
Theorem validate_rejects_type allowedExtensions s f rest ext :
  files (input s) = f :: rest ->
  fileExtensionOf (name f) = Normal ext ->
  ext ∉ allowedExtensions ->
  exists s',
    validateFileInput allowedExtensions s = (Normal tt, s') /\
    files (input s') = [] /\
    alerts s' = (alerts s ++ typeAlert allowedExtensions
                   :: (if (16777216 <? size f)%N then [sizeAlert] else []))%list /\
    typeAlert allowedExtensions =
      "Invalid file type. Allowed types: " +:+ join ", " allowedExtensions /\
    (forall x, x ∈ allowedExtensions -> mentions (typeAlert allowedExtensions) x) /\
    sizeAlert <> typeAlert allowedExtensions.
Proof.
  intros Hfiles Hext Hnotin.
  eexists. split; [apply (validateFileInput_run _ _ _ _ _ Hfiles Hext)|]. simpl.
  apply includes_not_elem_of in Hnotin. unfold checksFail, newAlerts. rewrite Hnotin. simpl.
  repeat split; auto using typeAlert_mentions.
Qed.

(** C4: a file of more than 16 * 1024 * 1024 = 16,777,216 bytes is
    deselected and the size dialog is shown, whatever its suffix: the size
    dialog is the last one shown, after the type dialog when the suffix is
    not allowed and alone when it is. *)
Theorem validate_rejects_oversized allowedExtensions s f rest :
  files (input s) = f :: rest ->
  (16 * 1024 * 1024 < size f)%N ->
  (16 * 1024 * 1024 = 16777216)%N /\
  exists s' ext,
    fileExtensionOf (name f) = Normal ext /\
    validateFileInput allowedExtensions s = (Normal tt, s') /\
    files (input s') = [] /\
    alerts s' = (alerts s
                 ++ (if includes allowedExtensions ext then []
                     else [typeAlert allowedExtensions])
                 ++ [sizeAlert])%list.
Proof.
  intros Hfiles Hsize. split; [reflexivity|].
  destruct (fileExtensionOf_normal (name f)) as [ext Hext].
  eexists _, ext. split; [exact Hext|].
  split; [apply (validateFileInput_run _ _ _ _ _ Hfiles Hext)|]. simpl.
  change (16 * 1024 * 1024)%N with 16777216%N in Hsize.
  apply N.ltb_lt in Hsize. unfold checksFail, newAlerts. rewrite Hsize.
  rewrite orb_true_r. split; reflexivity.
Qed.

(** C5: a file that is both of a suffix outside the allowed set and of
    more than 16,777,216 bytes gets two dialogs, the type dialog and then
    the size dialog, and is deselected. *)
Theorem validate_rejects_both allowedExtensions s f rest ext :
  files (input s) = f :: rest ->
  fileExtensionOf (name f) = Normal ext ->
  ext ∉ allowedExtensions ->
  (16777216 < size f)%N ->
  exists s',
    validateFileInput allowedExtensions s = (Normal tt, s') /\
    files (input s') = [] /\
    alerts s' = (alerts s ++ [typeAlert allowedExtensions; sizeAlert])%list.
Proof.
  intros Hfiles Hext Hnotin Hsize.
  eexists. split; [apply (validateFileInput_run _ _ _ _ _ Hfiles Hext)|]. simpl.
  apply includes_not_elem_of in Hnotin. apply N.ltb_lt in Hsize.
  unfold checksFail, newAlerts. rewrite Hnotin, Hsize. split; reflexivity.
Qed.

(** C10: only the first file of a selection is inspected. With the same
    first file [f], two selections get the same completion and the same
    dialogs and are both deselected or both kept, whatever the files after
    [f] are; and when [f] satisfies the constraints the whole selection is
    kept, later files included, with no dialog. *)
Theorem validate_first_file_only allowedExtensions f rest rest' ls log :
  let run others :=
    validateFileInput allowedExtensions
      {| input := {| files := f :: others; listeners := ls |}; alerts := log |} in
  fst (run rest) = fst (run rest') /\
  alerts (snd (run rest)) = alerts (snd (run rest')) /\
  (files (input (snd (run rest))) = [] <-> files (input (snd (run rest'))) = []) /\
  (acceptable allowedExtensions f ->
   run rest = (Normal tt, {| input := {| files := f :: rest; listeners := ls |};
                             alerts := log |})).
Proof.
  intros run. destruct (fileExtensionOf_normal (name f)) as [ext Hext].
  assert (forall others, run others =
            (Normal tt,
             {| input := if checksFail allowedExtensions ext f
                         then {| files := []; listeners := ls |}
                         else {| files := f :: others; listeners := ls |};
                alerts := (log ++ newAlerts allowedExtensions ext f)%list |})) as Hrun.
  { intros others. unfold run.
    by rewrite (validateFileInput_run _ _ f others ext). }
  rewrite !Hrun. simpl. repeat split.
  - destruct (checksFail allowedExtensions ext f); [done | discriminate].
  - destruct (checksFail allowedExtensions ext f); [done | discriminate].
  - intros [[ext' [Hext' Hin]] Hsize]. rewrite Hext in Hext'. simplify_eq.
    destruct (checks_pass _ _ _ Hin Hsize) as [-> ->]. by rewrite app_nil_r.
Qed.

End ValidationFacts.

(* ===================================================================== *)
(** ** The [DOMContentLoaded] listener *)
(* ===================================================================== *)

(** [addEventListener] on a control that was found, skipped otherwise. *)
Lemma register_if_present id l (w : Window) :
  exists m,
    when (truthy (match elements w !! id with Some _ => Some id | None => None end))
         (member (match elements w !! id with Some _ => Some id | None => None end)
                 (fun el => addEventListener el "change" l)) w
    = (Normal tt, {| elements := m; banners := banners w; buttons := buttons w;
                     timers := timers w; dialogs := dialogs w |})
    /\ (forall j, m !! j = if decide (id = j)
                           then addListener ("change", l) <$> elements w !! id
                           else elements w !! j).
Proof.
  destruct (elements w !! id) as [el|] eqn:Hlook; simpl.
  - eexists. split; [reflexivity|]. intros j. rewrite lookup_alter. rewrite Hlook.
    case_decide; reflexivity.
  - exists (elements w). split; [by destruct w|].
    intros j. case_decide; [by subst|reflexivity].
Qed.

Lemma forEach_setTimeout (refs : list nat) (w : Window) :
  forEach refs (fun alert => setTimeout (AutoClose alert) 5000) w =
    (Normal tt,
     {| elements := elements w; banners := banners w; buttons := buttons w;
        timers := (timers w ++ map autoCloseTimer refs)%list;
        dialogs := dialogs w |}).
Proof.
  revert w. induction refs as [|r refs IH]; intros w; simpl.
  - unfold ret. rewrite app_nil_r. by destruct w.
  - unfold bind, setTimeout at 1. rewrite IH. simpl.
    by rewrite <- app_assoc.
Qed.

(** The whole listener: it completes normally; each of the two controls
    that is in the page gets one more [change] listener, nothing else
    among the controls changes; one timer of 5000 ms per banner is queued
    behind those already there; banners and dialogs are as before. *)
Lemma onDOMContentLoaded_run (w : Window) :
  exists m,
    onDOMContentLoaded w =
      (Normal tt,
       {| elements := m; banners := banners w; buttons := buttons w;
          timers := (timers w ++ map autoCloseTimer (seq 0 (length (banners w))))%list;
          dialogs := dialogs w |})
    /\ m !! "answer_sheet" =
         addListener ("change", ValidateThis sheetExtensions) <$> elements w !! "answer_sheet"
    /\ m !! "answer_key" =
         addListener ("change", ValidateThis keyExtensions) <$> elements w !! "answer_key"
    /\ (forall id, id <> "answer_sheet" -> id <> "answer_key" -> m !! id = elements w !! id).
Proof.
  destruct (register_if_present "answer_sheet" (ValidateThis sheetExtensions) w)
    as (m1 & Hrun1 & Hm1).
  set (w1 := {| elements := m1; banners := banners w; buttons := buttons w;
                timers := timers w; dialogs := dialogs w |}) in *.
  destruct (register_if_present "answer_key" (ValidateThis keyExtensions) w1)
    as (m2 & Hrun2 & Hm2).
  assert (elements w1 !! "answer_key" = elements w !! "answer_key") as Hkey.
  { simpl. rewrite Hm1. by case_decide. }
  exists m2. split; [|split; [|split]].
  - unfold onDOMContentLoaded, bind at 1 2, getElementById.
    unfold bind at 1. rewrite Hrun1.
    unfold bind at 1. rewrite <- Hkey. rewrite Hrun2.
    unfold bind, querySelectorAllAlert. simpl.
    by rewrite forEach_setTimeout.
  - rewrite Hm2. case_decide; [discriminate|]. simpl. rewrite Hm1. by case_decide.
  - rewrite Hm2. case_decide; [|done]. by rewrite Hkey.
  - intros id Hsheet Hkey'. rewrite Hm2. case_decide; [congruence|].
    simpl. rewrite Hm1. case_decide; [congruence|done].
Qed.

(** C7: at initialization the answer-sheet control, if it is in the page,
    gets the [change] listener that validates against [jpg, jpeg, png,
    pdf], and the answer-key control, if it is in the page, the one that
    validates against [jpg, jpeg, png, pdf, txt]; a control that is not in
    the page is skipped (it is still absent afterwards), no other control
    is touched, and the listener completes without an exception in every
    page. *)
Theorem onDOMContentLoaded_registers (w : Window) :
  exists w',
    onDOMContentLoaded w = (Normal tt, w') /\
    elements w' !! "answer_sheet" =
      match elements w !! "answer_sheet" with
      | Some el =>
          Some {| files := files el;
                  listeners :=
                    (listeners el
                     ++ [("change", ValidateThis ["jpg"; "jpeg"; "png"; "pdf"])])%list |}
      | None => None
      end /\
    elements w' !! "answer_key" =
      match elements w !! "answer_key" with
      | Some el =>
          Some {| files := files el;
                  listeners :=
                    (listeners el
                     ++ [("change", ValidateThis ["jpg"; "jpeg"; "png"; "pdf"; "txt"])])%list |}
      | None => None
      end /\
    (forall id, id <> "answer_sheet" -> id <> "answer_key" ->
                elements w' !! id = elements w !! id).
Proof.
  destruct (onDOMContentLoaded_run w) as (m & Hrun & Hsheet & Hkey & Hother).
  eexists. split; [exact Hrun|]. simpl.
  split; [rewrite Hsheet; by destruct (elements w !! "answer_sheet")|].
  split; [rewrite Hkey; by destruct (elements w !! "answer_key")|].
  exact Hother.
Qed.

(* ===================================================================== *)
(** ** The auto-close timers *)
(* ===================================================================== *)

(** The closure of a timer, on any page: it never throws, and clicks what
    its banner's [querySelector] finds, if anything; nothing else in the
    page changes. *)
Lemma runTimerCallback_clicks (i : nat) (w : Window) :
  runTimerCallback (AutoClose i) w =
    (Normal tt, {| elements := elements w; banners := banners w;
                   buttons := press (banners w !! i ≫= closeButton) (buttons w);
                   timers := timers w; dialogs := dialogs w |}).
Proof.
  unfold runTimerCallback, bind, querySelectorBtnClose.
  destruct (banners w !! i) as [b|] eqn:Hb; simpl.
  - destruct (closeButton b) as [button|] eqn:Hbutton; simpl; [reflexivity|].
    by destruct w.
  - by destruct w.
Qed.

(** On a banner with no close button the closure changes nothing at all. *)
Lemma runTimerCallback_buttonless (w : Window) (i : nat) (b : Banner) :
  banners w !! i = Some b -> closeButton b = None ->
  runTimerCallback (AutoClose i) w = (Normal tt, w).
Proof.
  intros Hlook Hnone. rewrite runTimerCallback_clicks, Hlook. simpl.
  rewrite Hnone. by destruct w.
Qed.

Lemma runCallbacks_run (cbs : list TimerCallback) (w : Window) :
  exists cs w',
    runCallbacks cbs w = (cs, w') /\
    Forall (fun c => c = Normal tt) cs /\
    length cs = length cbs /\
    banners w' = banners w.
Proof.
  revert w. induction cbs as [|[i] cbs IH]; intros w.
  - exists [], w. by repeat split.
  - cbn [runCallbacks]. rewrite runTimerCallback_clicks.
    destruct (IH {| elements := elements w; banners := banners w;
                    buttons := press (banners w !! i ≫= closeButton) (buttons w);
                    timers := timers w; dialogs := dialogs w |})
      as (cs & w' & -> & Hall & Hlen & Hbanners).
    exists (Normal tt :: cs), w'. repeat split; auto. simpl. by rewrite Hlen.
Qed.

(** C9: for a banner that is in the page at load time and has no close
    button, the listener of [DOMContentLoaded] queues the timer of 5000 ms
    for it; the closure of that timer returns normally and changes nothing
    in the page; and once the 5000 ms have elapsed and every due timer has
    run, none of them has thrown and the banner is as it was. *)
Theorem buttonless_banner_untouched (w : Window) (i : nat) (b : Banner) :
  banners w !! i = Some b ->
  closeButton b = None ->
  exists w1 cs w2,
    onDOMContentLoaded w = (Normal tt, w1) /\
    {| callback := AutoClose i; delay := 5000 |} ∈ timers w1 /\
    runTimerCallback (AutoClose i) w1 = (Normal tt, w1) /\
    elapse 5000 w1 = (cs, w2) /\
    AutoClose i ∈ map callback (List.filter (isDue 5000) (timers w1)) /\
    Forall (fun c => c = Normal tt) cs /\
    banners w2 !! i = Some b.
Proof.
  intros Hlook Hnone.
  destruct (onDOMContentLoaded_run w) as (m & Hrun & _).
  set (w1 := {| elements := m; banners := banners w; buttons := buttons w;
                timers := (timers w ++ map autoCloseTimer (seq 0 (length (banners w))))%list;
                dialogs := dialogs w |}) in *.
  assert (autoCloseTimer i ∈ timers w1) as Hqueued.
  { simpl. apply elem_of_app. right. apply (list_elem_of_fmap_2 autoCloseTimer).
    apply elem_of_seq. apply lookup_lt_Some in Hlook. lia. }
  destruct (runCallbacks_run
              (map callback (List.filter (isDue 5000) (timers w1)))
              {| elements := elements w1; banners := banners w1; buttons := buttons w1;
                 timers := map (fun t => {| callback := callback t; delay := delay t - 5000 |})
                             (List.filter (fun t => negb (isDue 5000 t)) (timers w1));
                 dialogs := dialogs w1 |})
    as (cs & w2 & Helapse & Hall & _ & Hbanners).
  exists w1, cs, w2. repeat split; auto; [| |by rewrite Hbanners].
  - by apply runTimerCallback_buttonless with b.
  - apply (list_elem_of_fmap_2 callback _ (autoCloseTimer i)).
    apply list_elem_of_In, filter_In. split; [by apply list_elem_of_In | reflexivity].
Qed.

(* ===================================================================== *)
(** ** From registration to validation *)
(* ===================================================================== *)

Section DispatchFacts.
Context `{StringPrototype}.

(** Once the page is initialized, a [change] event on the answer-sheet
    control runs [validateFileInput] on it with the answer-sheet suffixes
    (for a control that had no listener before). *)
Lemma change_runs_sheet_validation (w w' : Window) (el : HTMLInputElement) :
  onDOMContentLoaded w = (Normal tt, w') ->
  elements w !! "answer_sheet" = Some el ->
  listeners el = [] ->
  dispatchChange "answer_sheet" w' =
    (let (c, s) := validateFileInput sheetExtensions
                     {| input := addListener ("change", ValidateThis sheetExtensions) el;
                        alerts := dialogs w |} in
     (c, {| elements := <["answer_sheet" := input s]> (elements w');
            banners := banners w'; buttons := buttons w'; timers := timers w'; dialogs := alerts s |})).
Proof.
  intros Hinit Hlook Hnone.
  destruct (onDOMContentLoaded_run w) as (m & Hrun & Hsheet & _).
  rewrite Hrun in Hinit. injection Hinit as <-.
  unfold dispatchChange. simpl. rewrite Hsheet, Hlook. simpl. rewrite Hnone. simpl.
  unfold bind.
  destruct (validateFileInput sheetExtensions _) as [[[]|e] s]; reflexivity.
Qed.

End DispatchFacts.

(* ===================================================================== *)
(** ** The scenarios, run with the ASCII case mapping *)
(* ===================================================================== *)

Example scenario_scan_png :
  @validateFileInput asciiStrings sheetExtensions (selected [scanPng])
  = (Normal tt, selected [scanPng]).
Proof. reflexivity. Qed.

Example scenario_scan_docx :
  @validateFileInput asciiStrings sheetExtensions (selected [scanDocx])
  = (Normal tt,
     {| input := {| files := []; listeners := [] |};
        alerts := ["Invalid file type. Allowed types: jpg, jpeg, png, pdf"] |}).
Proof. reflexivity. Qed.

Example scenario_key_txt :
  @validateFileInput asciiStrings keyExtensions (selected [keyTxt])
  = (Normal tt,
     {| input := {| files := []; listeners := [] |};
        alerts := ["File size exceeds the maximum limit of 16MB."] |}).
Proof. reflexivity. Qed.

Example scenario_upload_page :
  let w1 := snd (onDOMContentLoaded uploadPage) in
  let w2 := snd (@userSelects asciiStrings "answer_sheet" [scanDocx] w1) in
  listeners <$> elements w1 !! "answer_sheet"
    = Some [("change", ValidateThis ["jpg"; "jpeg"; "png"; "pdf"])]
  /\ elements w1 !! "answer_key" = None
  /\ timers w1 = [autoCloseTimer 0; autoCloseTimer 1]
  /\ files <$> elements w2 !! "answer_sheet" = Some []
  /\ dialogs w2 = ["Invalid file type. Allowed types: jpg, jpeg, png, pdf"]
  /\ buttons (snd (elapse 5000 w2)) = [ {| clicks := 1 |} ]
  /\ banners (snd (elapse 5000 w2)) = banners uploadPage
  /\ buttons (snd (elapse 4999 w2)) = [ {| clicks := 0 |} ].
Proof. vm_compute. repeat split; reflexivity. Qed.

(* ===================================================================== *)
(** ** The theorems at concrete inputs *)
(* ===================================================================== *)

Lemma fileExtensionOf_suffix_witness :
  occurs "." "PNG" = false /\
  @fileExtensionOf asciiStrings "Scan.tar.PNG" = Normal "png".
Proof.
  split; [reflexivity|].
  apply (@fileExtensionOf_suffix asciiStrings "Scan.tar.PNG" "Scan.tar" "PNG");
    [reflexivity | right; reflexivity].
Defined.

Lemma validate_no_file_witness :
  files (input (selected [])) = [] /\
  @validateFileInput asciiStrings sheetExtensions (selected []) = (Normal tt, selected []).
Proof.
  split; [reflexivity|].
  apply (@validate_no_file asciiStrings sheetExtensions (selected [])). reflexivity.
Defined.

Lemma validate_accepts_witness :
  @fileExtensionOf asciiStrings (name scanPng) = Normal "png" /\
  (size scanPng <= 16777216)%N /\
  @validateFileInput asciiStrings sheetExtensions (selected [scanPng])
    = (Normal tt, selected [scanPng]).
Proof.
  split; [reflexivity|]. split; [vm_compute; discriminate|].
  apply (@validate_accepts asciiStrings sheetExtensions (selected [scanPng]) scanPng [] "png").
  - reflexivity.
  - reflexivity.
  - apply includes_elem_of. reflexivity.
  - vm_compute. discriminate.
Defined.

Lemma validate_keeps_valid_or_clears_witness :
  exists s',
    @validateFileInput asciiStrings sheetExtensions (selected [scanDocx]) = (Normal tt, s') /\
    files (input s') = [].
Proof.
  destruct (@validate_keeps_valid_or_clears asciiStrings sheetExtensions
              (selected [scanDocx]) scanDocx [] eq_refl)
    as (s' & Hrun & _ & _ & _).
  exists s'. split; [exact Hrun|].
  vm_compute in Hrun. injection Hrun as <-. reflexivity.
Defined.

Lemma validate_rejects_type_witness :
  @fileExtensionOf asciiStrings (name scanDocx) = Normal "docx" /\
  exists s',
    @validateFileInput asciiStrings sheetExtensions (selected [scanDocx]) = (Normal tt, s') /\
    files (input s') = [] /\
    alerts s' = [typeAlert sheetExtensions].
Proof.
  split; [reflexivity|].
  destruct (@validate_rejects_type asciiStrings sheetExtensions
              (selected [scanDocx]) scanDocx [] "docx")
    as (s' & Hrun & Hfiles & Halerts & _).
  - reflexivity.
  - reflexivity.
  - apply includes_not_elem_of. reflexivity.
  - exists s'. repeat split; assumption.
Defined.

(** C3 as it is stated fails: on the answer-sheet control, a file of a
    suffix outside the allowed set that is also larger than 16,777,216
    bytes gets two dialogs, not exactly one. *)
Lemma validate_rejects_type_two_alerts :
  @fileExtensionOf asciiStrings (name hugeDocx) = Normal "docx" /\
  ("docx" ∉ sheetExtensions) /\
  alerts (snd (@validateFileInput asciiStrings sheetExtensions (selected [hugeDocx])))
    = [typeAlert sheetExtensions; sizeAlert] /\
  ~ (exists only, alerts (snd (@validateFileInput asciiStrings sheetExtensions
                                 (selected [hugeDocx]))) = [only]).
Proof.
  split; [reflexivity|]. split; [apply includes_not_elem_of; reflexivity|].
  split; [reflexivity|].
  intros [only Honly]. vm_compute in Honly. discriminate.
Qed.

Lemma validate_rejects_oversized_witness :
  (16 * 1024 * 1024 < size keyTxt)%N /\
  exists s',
    @validateFileInput asciiStrings keyExtensions (selected [keyTxt]) = (Normal tt, s') /\
    files (input s') = [].
Proof.
  split; [reflexivity|].
  destruct (@validate_rejects_oversized asciiStrings keyExtensions
              (selected [keyTxt]) keyTxt [])
    as (_ & s' & ext & _ & Hrun & Hfiles & _).
  - reflexivity.
  - reflexivity.
  - exists s'. split; assumption.
Defined.

Lemma validate_rejects_both_witness :
  (16777216 < size hugeDocx)%N /\
  exists s',
    @validateFileInput asciiStrings sheetExtensions (selected [hugeDocx]) = (Normal tt, s') /\
    files (input s') = [] /\
    alerts s' = [typeAlert sheetExtensions; sizeAlert].
Proof.
  split; [reflexivity|].
  apply (@validate_rejects_both asciiStrings sheetExtensions
           (selected [hugeDocx]) hugeDocx [] "docx").
  - reflexivity.
  - reflexivity.
  - apply includes_not_elem_of. reflexivity.
  - reflexivity.
Defined.

Lemma validate_first_file_only_witness :
  @acceptable asciiStrings sheetExtensions scanPng /\
  @validateFileInput asciiStrings sheetExtensions (selected [scanPng; hugeDocx])
    = (Normal tt, selected [scanPng; hugeDocx]).
Proof.
  assert (@acceptable asciiStrings sheetExtensions scanPng) as Hok.
  { split; [exists "png"; split; [reflexivity | apply includes_elem_of; reflexivity]
           | vm_compute; discriminate]. }
  split; [exact Hok|].
  destruct (@validate_first_file_only asciiStrings sheetExtensions
              scanPng [hugeDocx] [] [] [])
    as (_ & _ & _ & Hkept).
  exact (Hkept Hok).
Defined.

Lemma onDOMContentLoaded_registers_witness :
  exists w',
    onDOMContentLoaded uploadPage = (Normal tt, w') /\
    elements w' !! "answer_sheet" =
      Some {| files := [];
              listeners := [("change", ValidateThis ["jpg"; "jpeg"; "png"; "pdf"])] |} /\
    elements w' !! "answer_key" = None.
Proof.
  destruct (onDOMContentLoaded_registers uploadPage) as (w' & Hinit & Hsheet & Hkey & _).
  exists w'. split; [exact Hinit|]. split; [exact Hsheet | exact Hkey].
Defined.

Lemma buttonless_banner_untouched_witness :
  banners uploadPage !! 1%nat = Some {| message := "Welcome."; closeButton := None |} /\
  exists w1 cs w2,
    onDOMContentLoaded uploadPage = (Normal tt, w1) /\
    elapse 5000 w1 = (cs, w2) /\
    Forall (fun c => c = Normal tt) cs /\
    banners w2 !! 1%nat = Some {| message := "Welcome."; closeButton := None |}.
Proof.
  split; [reflexivity|].
  destruct (buttonless_banner_untouched uploadPage 1
              {| message := "Welcome."; closeButton := None |} eq_refl eq_refl)
    as (w1 & cs & w2 & Hinit & _ & _ & Helapse & _ & Hall & Hbanner).
  exists w1, cs, w2. repeat split; assumption.
Defined.

(* ===================================================================== *)
(** ** [split]: the pieces of a name *)
(* ===================================================================== *)

Lemma concat_cons_piece (sep : string) (c : ascii) (piece : string) (pieces : list string) :
  String.concat sep (String c piece :: pieces) = String c (String.concat sep (piece :: pieces)).
Proof. destruct pieces; reflexivity. Qed.

(** X1: [split] cuts at every separator and nowhere else: no piece contains
    the separator, and the pieces joined by the separator are the string
    again. *)
Theorem split_join_inverse (sep : ascii) (s : string) :
  join (String sep "") (split sep s) = s /\
  Forall (fun piece => occurs sep piece = false) (split sep s).
Proof.
  unfold join. induction s as [|c rest [IHjoin IHfree]]; simpl.
  - split; [reflexivity | by repeat constructor].
  - destruct (Ascii.eqb c sep) eqn:Hc.
    + apply Ascii.eqb_eq in Hc as ->. split; [|by constructor].
      pose proof (split_not_empty sep rest) as Hne.
      destruct (split sep rest) as [|piece pieces]; [done|].
      change (String.concat (String sep "") ("" :: piece :: pieces))
        with (String sep (String.concat (String sep "") (piece :: pieces))).
      by rewrite IHjoin.
    + pose proof (split_not_empty sep rest) as Hne.
      destruct (split sep rest) as [|piece pieces]; [done|].
      rewrite concat_cons_piece, IHjoin. split; [reflexivity|].
      inversion IHfree as [|? ? Hpiece Hpieces]; subst.
      constructor; [|done]. simpl. by rewrite Hc, Hpiece.
Qed.

(* ===================================================================== *)
(** ** [validateFileInput]: further properties *)
(* ===================================================================== *)

Section ValidationProperties.
Context `{StringPrototype}.

Lemma validateFileInput_empty allowedExtensions s :
  files (input s) = [] -> validateFileInput allowedExtensions s = (Normal tt, s).
Proof.
  intros Hfiles. unfold validateFileInput, bind, filesAt. simpl.
  by rewrite Hfiles.
Qed.

Lemma newAlerts_shape allowedExtensions ext f :
  length (newAlerts allowedExtensions ext f) <= 2 /\
  Forall (fun m => m = typeAlert allowedExtensions \/ m = sizeAlert)
         (newAlerts allowedExtensions ext f) /\
  (newAlerts allowedExtensions ext f = [] <-> checksFail allowedExtensions ext f = false).
Proof.
  unfold newAlerts, checksFail.
  destruct (includes allowedExtensions ext), (16777216 <? size f)%N; simpl;
    (split; [lia|]); (split; [repeat constructor; auto|]); split; congruence.
Qed.

(** What any call does, in one statement. *)
Lemma validateFileInput_effect allowedExtensions s :
  exists s' new,
    validateFileInput allowedExtensions s = (Normal tt, s') /\
    listeners (input s') = listeners (input s) /\
    alerts s' = (alerts s ++ new)%list /\
    length new <= 2 /\
    Forall (fun m => m = typeAlert allowedExtensions \/ m = sizeAlert) new /\
    (new = [] -> input s' = input s) /\
    (new <> [] -> files (input s') = [] /\ files (input s) <> []).
Proof.
  destruct (files (input s)) as [|f rest] eqn:Hfiles.
  - exists s, []. rewrite (validateFileInput_empty _ _ Hfiles), app_nil_r.
    repeat split; auto; try done; simpl; lia.
  - destruct (fileExtensionOf_normal (name f)) as [ext Hext].
    destruct (newAlerts_shape allowedExtensions ext f) as (Hlen & Hall & Hnil).
    eexists _, (newAlerts allowedExtensions ext f).
    split; [apply (validateFileInput_run _ _ _ _ _ Hfiles Hext)|]. simpl.
    destruct (checksFail allowedExtensions ext f) eqn:Hchecks; simpl.
    + do 4 (split; [done|]). split.
      * intros Hnew. apply Hnil in Hnew. discriminate.
      * done.
    + do 4 (split; [done|]). split; [done|].
      intros Hnew. destruct Hnew. by apply Hnil.
Qed.

(** X2: The call never throws; it leaves the control's listeners and the
    dialogs already shown as they are; it shows at most two dialogs, each
    the type dialog or the size dialog; and it shows a dialog exactly when
    it empties a selection: no file is dropped silently, and no dialog is
    shown for a selection that is kept. *)
Theorem validate_alerts_iff_cleared allowedExtensions s :
  exists s' new,
    validateFileInput allowedExtensions s = (Normal tt, s') /\
    listeners (input s') = listeners (input s) /\
    alerts s' = (alerts s ++ new)%list /\
    length new <= 2 /\
    Forall (fun m => m = typeAlert allowedExtensions \/ m = sizeAlert) new /\
    (new = [] <-> files (input s') = files (input s)).
Proof.
  destruct (validateFileInput_effect allowedExtensions s)
    as (s' & new & Hrun & Hls & Halerts & Hlen & Hall & Hnil & Hcons).
  exists s', new. repeat split; auto.
  - intros Hnew. by rewrite (Hnil Hnew).
  - intros Hsame. destruct new as [|m new]; [done|].
    destruct Hcons as [Hcleared Hhad]; [done|]. congruence.
Qed.

(** X3: Validating again changes nothing more: a second call on the state the
    first one left returns that state, with no further dialog. *)
Theorem validate_twice allowedExtensions s :
  exists s',
    validateFileInput allowedExtensions s = (Normal tt, s') /\
    validateFileInput allowedExtensions s' = (Normal tt, s').
Proof.
  destruct (files (input s)) as [|f rest] eqn:Hfiles.
  - exists s. by rewrite (validateFileInput_empty _ _ Hfiles).
  - destruct (fileExtensionOf_normal (name f)) as [ext Hext].
    eexists. split; [apply (validateFileInput_run _ _ _ _ _ Hfiles Hext)|].
    destruct (checksFail allowedExtensions ext f) eqn:Hchecks.
    + by apply validateFileInput_empty.
    + rewrite (validateFileInput_run _ _ f rest ext); try done. simpl.
      rewrite Hchecks.
      assert (newAlerts allowedExtensions ext f = []) as ->
        by by apply (newAlerts_shape allowedExtensions ext f).
      by rewrite !app_nil_r.
Qed.

(** X4: The outcome depends on the file only through its size and the
    lowercased text after the last "." of its name: two files of the same
    size whose names end in suffixes that are equal once lowercased get
    the same dialogs, and are both kept or both deselected, whatever
    comes before the last "." and whatever follows them in the selection. *)
Theorem validate_same_suffix allowedExtensions f g stem stem' ext ext' rest rest' ls log :
  name f = stem +:+ "." +:+ ext ->
  name g = stem' +:+ "." +:+ ext' ->
  occurs "." ext = false ->
  occurs "." ext' = false ->
  toLowerCase ext = toLowerCase ext' ->
  size f = size g ->
  exists sf sg,
    validateFileInput allowedExtensions
      {| input := {| files := f :: rest; listeners := ls |}; alerts := log |} = (Normal tt, sf) /\
    validateFileInput allowedExtensions
      {| input := {| files := g :: rest'; listeners := ls |}; alerts := log |} = (Normal tt, sg) /\
    alerts sf = alerts sg /\
    (files (input sf) = [] <-> files (input sg) = []).
Proof.
  intros Hf Hg Hext Hext' Hlower Hsize.
  assert (fileExtensionOf (name f) = Normal (toLowerCase ext)) as Hef.
  { rewrite Hf. unfold fileExtensionOf. change ("." +:+ ext) with (String "." ext).
    by rewrite (pop_split_suffix _ _ _ Hext). }
  assert (fileExtensionOf (name g) = Normal (toLowerCase ext)) as Heg.
  { rewrite Hg, Hlower. unfold fileExtensionOf. change ("." +:+ ext') with (String "." ext').
    by rewrite (pop_split_suffix _ _ _ Hext'). }
  eexists _, _.
  split; [by apply (validateFileInput_run _ _ f rest (toLowerCase ext))|].
  split; [by apply (validateFileInput_run _ _ g rest' (toLowerCase ext))|].
  simpl. unfold checksFail, newAlerts. rewrite Hsize. split; [reflexivity|].
  destruct (negb (includes allowedExtensions (toLowerCase ext)) || (16777216 <? size g)%N);
    simpl; split; congruence.
Qed.

(** X5: A name with no "." at all is its own suffix: a file named like an
    allowed suffix (in any case the mapping folds) passes the type check,
    and is kept when it has at most 16,777,216 bytes. *)
Theorem validate_accepts_dotless allowedExtensions s f rest :
  files (input s) = f :: rest ->
  occurs "." (name f) = false ->
  toLowerCase (name f) ∈ allowedExtensions ->
  (size f <= 16777216)%N ->
  validateFileInput allowedExtensions s = (Normal tt, s).
Proof.
  intros Hfiles Hocc Hin Hsize.
  assert (fileExtensionOf (name f) = Normal (toLowerCase (name f))) as Hext.
  { unfold fileExtensionOf. by rewrite (split_without_sep _ _ Hocc). }
  rewrite (validateFileInput_run _ _ _ _ _ Hfiles Hext).
  destruct (checks_pass _ _ _ Hin Hsize) as [-> ->].
  by rewrite app_nil_r, scope_eta.
Qed.

Lemma validate_kept_inv allowedExtensions s f rest ext :
  files (input s) = f :: rest ->
  fileExtensionOf (name f) = Normal ext ->
  validateFileInput allowedExtensions s = (Normal tt, s) ->
  ext ∈ allowedExtensions /\ (size f <= 16777216)%N.
Proof.
  intros Hfiles Hext Hrun.
  rewrite (validateFileInput_run _ _ _ _ _ Hfiles Hext) in Hrun.
  apply checksFail_false.
  destruct (checksFail allowedExtensions ext f); [|reflexivity].
  injection Hrun as Hs. apply (f_equal (fun s => files (input s))) in Hs.
  simpl in Hs. congruence.
Qed.

(** Allowing more suffixes never rejects more. *)
Lemma validate_monotone allowedExtensions allowedExtensions' s :
  allowedExtensions ⊆ allowedExtensions' ->
  validateFileInput allowedExtensions s = (Normal tt, s) ->
  validateFileInput allowedExtensions' s = (Normal tt, s).
Proof.
  intros Hsub Hrun. destruct (files (input s)) as [|f rest] eqn:Hfiles.
  - by apply validateFileInput_empty.
  - destruct (fileExtensionOf_normal (name f)) as [ext Hext].
    destruct (validate_kept_inv _ _ _ _ _ Hfiles Hext Hrun) as [Hin Hsize].
    rewrite (validateFileInput_run _ _ _ _ _ Hfiles Hext).
    destruct (checks_pass allowedExtensions' ext f (Hsub _ Hin) Hsize) as [-> ->].
    by rewrite app_nil_r, scope_eta.
Qed.

(** X6: Every selection the answer-sheet control keeps without a dialog, the
    answer-key control keeps without a dialog too. *)
Theorem sheet_kept_then_key_kept s :
  validateFileInput sheetExtensions s = (Normal tt, s) ->
  validateFileInput keyExtensions s = (Normal tt, s).
Proof.
  apply validate_monotone. unfold sheetExtensions, keyExtensions.
  intros x Hx. apply includes_elem_of. apply includes_elem_of in Hx.
  simpl in *. repeat (apply orb_true_iff in Hx as [Hx | Hx]; [rewrite Hx; by rewrite ?orb_true_r|]).
  discriminate.
Qed.


End ValidationProperties.

(* ===================================================================== *)
(** ** The page: initialization, timers and events together *)
(* ===================================================================== *)

(** X8: The listener of [DOMContentLoaded] changes no selection, creates no
    control, shows no dialog and touches no banner or button; what it adds to the
    timer queue, behind the timers already there, is one timer of 5000 ms
    per banner, in document order. *)
Theorem onDOMContentLoaded_frame (w : Window) :
  exists w',
    onDOMContentLoaded w = (Normal tt, w') /\
    (forall id, files <$> elements w' !! id = files <$> elements w !! id) /\
    banners w' = banners w /\
    buttons w' = buttons w /\
    dialogs w' = dialogs w /\
    timers w' =
      (timers w ++ map (fun banner => {| callback := AutoClose banner; delay := 5000 |})
                       (seq 0 (length (banners w))))%list.
Proof.
  destruct (onDOMContentLoaded_run w) as (m & Hrun & Hsheet & Hkey & Hother).
  eexists. split; [exact Hrun|]. simpl. repeat split; try reflexivity.
  intros id. destruct (decide (id = "answer_sheet")) as [->|Hns].
  - rewrite Hsheet. by destruct (elements w !! "answer_sheet").
  - destruct (decide (id = "answer_key")) as [->|Hnk].
    + rewrite Hkey. by destruct (elements w !! "answer_key").
    + by rewrite Hother.
Qed.

Lemma runCallbacks_clicks (refs : list nat) (w : Window) :
  runCallbacks (map AutoClose refs) w =
    (replicate (length refs) (Normal tt),
     {| elements := elements w; banners := banners w;
        buttons := foldl (fun bs i => press (banners w !! i ≫= closeButton) bs)
                         (buttons w) refs;
        timers := timers w; dialogs := dialogs w |}).
Proof.
  revert w. induction refs as [|i refs IH]; intros w.
  - by destruct w.
  - cbn [map runCallbacks]. rewrite runTimerCallback_clicks, IH. reflexivity.
Qed.

(** Running the closures of all banners in document order is pressing,
    banner after banner, what each one finds. *)
Lemma press_in_document_order (before after : list Banner) (bs : list Button) :
  foldl (fun bs i => press ((before ++ after)%list !! i ≫= closeButton) bs) bs
        (seq (length before) (length after))
  = foldl (fun bs b => press (closeButton b) bs) bs after.
Proof.
  revert before bs. induction after as [|b after IH]; intros before bs; [done|].
  cbn [length seq foldl]. rewrite list_lookup_middle by done. simpl.
  rewrite (cons_middle b), app_assoc.
  replace (S (length before)) with (length (before ++ [b])%list)
    by (rewrite length_app; simpl; lia).
  apply IH.
Qed.

(** A button is pressed once for every banner that finds it. *)
Lemma press_counts (found : list Banner) (bs : list Button) (r : nat) :
  foldl (fun bs b => press (closeButton b) bs) bs found !! r =
  (fun btn => {| clicks := clicks btn
                   + length (List.filter (fun b => bool_decide (closeButton b = Some r))
                                         found) |})
    <$> bs !! r.
Proof.
  revert bs. induction found as [|b found IH]; intros bs.
  - simpl. destruct (bs !! r) as [[n]|]; simpl; [|done]. by rewrite Nat.add_0_r.
  - cbn [foldl List.filter]. rewrite IH. unfold press.
    destruct (closeButton b) as [r'|] eqn:Hfound.
    + rewrite list_lookup_alter. case_decide as Hr.
      * subst r'. rewrite bool_decide_eq_true_2 by done.
        destruct (bs !! r) as [[n]|]; simpl; [|done]. do 2 f_equal. lia.
      * rewrite bool_decide_eq_false_2 by congruence. done.
    + rewrite bool_decide_eq_false_2 by done. done.
Qed.

Lemma filter_all_due (ms : N) (refs : list nat) :
  List.filter (isDue ms) (map (fun i => {| callback := AutoClose i; delay := ms |}) refs)
    = map (fun i => {| callback := AutoClose i; delay := ms |}) refs
  /\ List.filter (fun t => negb (isDue ms t))
       (map (fun i => {| callback := AutoClose i; delay := ms |}) refs) = [].
Proof.
  assert (forall i, isDue ms {| callback := AutoClose i; delay := ms |} = true) as Hdue
    by (intros i; apply N.leb_refl).
  induction refs as [|i refs [IHdue IHwait]]; [done|].
  cbn [map List.filter]. rewrite !Hdue. simpl. by rewrite IHdue, IHwait.
Qed.

Lemma filter_none_due (ms t : N) (refs : list nat) :
  (t < ms)%N ->
  List.filter (isDue t) (map (fun i => {| callback := AutoClose i; delay := ms |}) refs) = []
  /\ List.filter (fun x => negb (isDue t x))
       (map (fun i => {| callback := AutoClose i; delay := ms |}) refs)
     = map (fun i => {| callback := AutoClose i; delay := ms |}) refs.
Proof.
  intros Hlt.
  assert (forall i, isDue t {| callback := AutoClose i; delay := ms |} = false) as Hdue
    by (intros i; by apply N.leb_gt).
  induction refs as [|i refs [IHdue IHwait]]; [done|].
  cbn [map List.filter]. rewrite !Hdue. simpl. by rewrite IHdue, IHwait.
Qed.

(** The timers of a page, once they are all due: every closure runs, in
    document order, and none throws. *)
Lemma elapse_all_due (ms : N) (w : Window) :
  timers w = map (fun i => {| callback := AutoClose i; delay := ms |})
                 (seq 0 (length (banners w))) ->
  elapse ms w =
    (replicate (length (banners w)) (Normal tt),
     {| elements := elements w; banners := banners w;
        buttons := foldl (fun bs b => press (closeButton b) bs) (buttons w) (banners w);
        timers := []; dialogs := dialogs w |}).
Proof.
  intros Htimers. unfold elapse. rewrite Htimers.
  destruct (filter_all_due ms (seq 0 (length (banners w)))) as [-> ->].
  rewrite map_map. simpl. rewrite runCallbacks_clicks. simpl.
  pose proof (press_in_document_order [] (banners w) (buttons w)) as Horder.
  simpl in Horder. by rewrite length_seq, Horder.
Qed.

(** X9: In a page with no timer pending at load time, 5000 ms after the
    listener of [DOMContentLoaded] ran one closure per banner has run and
    none has thrown. Every close button has been clicked once for each
    banner whose [querySelector] finds it: once when it is found by one
    banner only, twice when a banner and the banner around it both find
    it; a button no banner finds is not clicked. The banners themselves,
    the controls and the dialogs are as before, and the timer queue is
    empty, so that no later time clicks anything again. *)
Theorem auto_close_clicks_per_banner (w : Window) :
  timers w = [] ->
  exists w1 w2,
    onDOMContentLoaded w = (Normal tt, w1) /\
    elapse 5000 w1 = (replicate (length (banners w)) (Normal tt), w2) /\
    (forall r,
       buttons w2 !! r =
       (fun btn => {| clicks := clicks btn
                        + length (List.filter
                                    (fun b => bool_decide (closeButton b = Some r))
                                    (banners w)) |})
         <$> buttons w !! r) /\
    banners w2 = banners w /\
    timers w2 = [] /\
    elements w2 = elements w1 /\
    dialogs w2 = dialogs w /\
    (forall ms, fst (elapse ms w2) = [] /\ buttons (snd (elapse ms w2)) = buttons w2).
Proof.
  intros Hnone. destruct (onDOMContentLoaded_run w) as (m & Hrun & _).
  rewrite Hnone in Hrun. simpl in Hrun.
  set (w1 := {| elements := m; banners := banners w; buttons := buttons w;
                timers := map autoCloseTimer (seq 0 (length (banners w)));
                dialogs := dialogs w |}) in *.
  exists w1, {| elements := m; banners := banners w;
                buttons := foldl (fun bs b => press (closeButton b) bs)
                                 (buttons w) (banners w);
                timers := []; dialogs := dialogs w |}.
  split; [exact Hrun|].
  split; [exact (elapse_all_due 5000 w1 eq_refl)|].
  split; [intros r; apply press_counts|].
  simpl. repeat split; reflexivity.
Qed.

(** X10: Before the 5000 ms are over nothing happens: in a page with no
    timer pending at load time, after [ms] < 5000 milliseconds no closure
    has run, no button has been clicked and one timer per banner is still
    queued; and when the rest of the delay has passed, every closure has
    run, none has thrown, every close button has been clicked once for
    each banner that finds it, and the queue is empty. *)
Theorem auto_close_not_early (w : Window) (ms : N) :
  timers w = [] ->
  (ms < 5000)%N ->
  exists w1 w2 w3,
    onDOMContentLoaded w = (Normal tt, w1) /\
    elapse ms w1 = ([], w2) /\
    banners w2 = banners w /\
    buttons w2 = buttons w /\
    timers w2 = map (fun banner => {| callback := AutoClose banner; delay := 5000 - ms |})
                    (seq 0 (length (banners w))) /\
    elapse (5000 - ms) w2 = (replicate (length (banners w)) (Normal tt), w3) /\
    (forall r,
       buttons w3 !! r =
       (fun btn => {| clicks := clicks btn
                        + length (List.filter
                                    (fun b => bool_decide (closeButton b = Some r))
                                    (banners w)) |})
         <$> buttons w !! r) /\
    banners w3 = banners w /\
    timers w3 = [].
Proof.
  intros Hnone Hlt. destruct (onDOMContentLoaded_run w) as (m & Hrun & _).
  rewrite Hnone in Hrun. simpl in Hrun.
  set (w1 := {| elements := m; banners := banners w; buttons := buttons w;
                timers := map autoCloseTimer (seq 0 (length (banners w)));
                dialogs := dialogs w |}) in *.
  set (w2 := {| elements := m; banners := banners w; buttons := buttons w;
                timers := map (fun i => {| callback := AutoClose i; delay := 5000 - ms |})
                              (seq 0 (length (banners w)));
                dialogs := dialogs w |}).
  exists w1, w2, {| elements := m; banners := banners w;
                    buttons := foldl (fun bs b => press (closeButton b) bs)
                                     (buttons w) (banners w);
                    timers := []; dialogs := dialogs w |}.
  split; [exact Hrun|]. split.
  { unfold elapse, w1, w2. simpl. unfold autoCloseTimer.
    destruct (filter_none_due 5000 ms (seq 0 (length (banners w))) Hlt) as [-> ->].
    simpl. by rewrite map_map. }
  do 3 (split; [reflexivity|]).
  split; [exact (elapse_all_due (5000 - ms) w2 eq_refl)|].
  split; [intros r; apply press_counts|].
  split; reflexivity.
Qed.

Section EventProperties.
Context `{StringPrototype}.

(** Any number of the script's listeners, run one after the other on a
    control. *)
Lemma listeners_run (ls : list Listener) (s : Scope) :
  exists s' new,
    forEach ls callListener s = (Normal tt, s') /\
    listeners (input s') = listeners (input s) /\
    alerts s' = (alerts s ++ new)%list /\
    (files (input s') = files (input s) \/ files (input s') = []).
Proof.
  revert s. induction ls as [|l ls IH]; intros s.
  - exists s, []. rewrite app_nil_r. by repeat split; [left].
  - destruct l as [allowedExtensions].
    destruct (validateFileInput_effect allowedExtensions s)
      as (s1 & new1 & Hrun1 & Hls1 & Halerts1 & _ & _ & Hnil & Hcons).
    destruct (IH s1) as (s2 & new2 & Hrun2 & Hls2 & Halerts2 & Hfiles2).
    exists s2, (new1 ++ new2)%list.
    split; [cbn [forEach callListener]; unfold bind; by rewrite Hrun1|].
    split; [congruence|]. split; [by rewrite Halerts2, Halerts1, app_assoc|].
    destruct Hfiles2 as [Hsame | Hempty]; [|by right].
    rewrite Hsame. destruct new1 as [|m new1]; [left; by rewrite Hnil|].
    right. by apply Hcons.
Qed.

(** X11: A [change] event never throws. It touches only the control it is
    fired on: that control keeps its listeners, and its selection is kept
    or emptied; every other control, the banners and the timers are as
    before (no close button is clicked), and dialogs are only added
    behind those already shown. *)
Theorem dispatchChange_frame (target : string) (w : Window) :
  exists w' new,
    dispatchChange target w = (Normal tt, w') /\
    (forall id, id <> target -> elements w' !! id = elements w !! id) /\
    listeners <$> elements w' !! target = listeners <$> elements w !! target /\
    (files <$> elements w' !! target = files <$> elements w !! target
     \/ files <$> elements w' !! target = Some []) /\
    banners w' = banners w /\
    buttons w' = buttons w /\
    timers w' = timers w /\
    dialogs w' = (dialogs w ++ new)%list.
Proof.
  unfold dispatchChange. destruct (elements w !! target) as [el|] eqn:Hlook.
  - destruct (listeners_run
                (map snd (List.filter (fun l => String.eqb (fst l) "change") (listeners el)))
                {| input := el; alerts := dialogs w |})
      as (s' & new & -> & Hls & Halerts & Hfiles).
    eexists _, new. split; [reflexivity|]. simpl in *.
    split; [intros id Hid; by rewrite lookup_insert_ne|].
    rewrite lookup_insert_eq. simpl.
    split; [by rewrite Hls|]. split; [|done].
    destruct Hfiles as [-> | ->]; [by left | by right].
  - exists w, []. rewrite app_nil_r, Hlook. repeat split; auto.
Qed.

(** X12: From the page to the function: once the listener of
    [DOMContentLoaded] has run, a selection made by the user in the
    answer-sheet (resp. answer-key) control, if that control had no
    listener before, is validated once, with the suffixes of that control;
    the control then holds what [validateFileInput] left and the page
    shows the dialogs it added. The selections of the other controls and
    the banners are not affected. *)
Theorem selection_is_validated (w : Window) (id : string) (allowedExtensions : list string)
    (el : HTMLInputElement) (selection : list File) :
  (id = "answer_sheet" /\ allowedExtensions = sheetExtensions)
  \/ (id = "answer_key" /\ allowedExtensions = keyExtensions) ->
  elements w !! id = Some el ->
  listeners el = [] ->
  exists w1 w2 s',
    onDOMContentLoaded w = (Normal tt, w1) /\
    userSelects id selection w1 = (Normal tt, w2) /\
    validateFileInput allowedExtensions
      {| input := {| files := selection;
                     listeners := [("change", ValidateThis allowedExtensions)] |};
         alerts := dialogs w |} = (Normal tt, s') /\
    elements w2 !! id = Some (input s') /\
    dialogs w2 = alerts s' /\
    (forall id', id' <> id -> files <$> elements w2 !! id' = files <$> elements w !! id') /\
    banners w2 = banners w /\
    buttons w2 = buttons w.
Proof.
  intros Hcontrol Hlook Hnone.
  destruct (onDOMContentLoaded_run w) as (m & Hrun & Hsheet & Hkey & Hother).
  assert (m !! id = Some (addListener ("change", ValidateThis allowedExtensions) el)) as Hreg.
  { destruct Hcontrol as [[-> ->] | [-> ->]]; [rewrite Hsheet | rewrite Hkey];
      by rewrite Hlook. }
  assert (forall id', files <$> m !! id' = files <$> elements w !! id') as Hfiles.
  { intros id'. destruct (decide (id' = "answer_sheet")) as [->|Hns].
    - rewrite Hsheet. by destruct (elements w !! "answer_sheet").
    - destruct (decide (id' = "answer_key")) as [->|Hnk].
      + rewrite Hkey. by destruct (elements w !! "answer_key").
      + by rewrite Hother. }
  set (s0 := {| input := {| files := selection;
                            listeners := [("change", ValidateThis allowedExtensions)] |};
                alerts := dialogs w |}).
  destruct (validateFileInput_effect allowedExtensions s0) as (s' & new & Hval & _).
  eexists _, _, s'. split; [exact Hrun|].
  split; [|split; [exact Hval|]].
  - unfold userSelects, bind, dispatchChange. simpl.
    rewrite lookup_alter_eq, Hreg. simpl. rewrite Hnone. simpl.
    unfold bind. fold s0. rewrite Hval. reflexivity.
  - simpl. rewrite lookup_insert_eq. repeat split; try reflexivity.
    intros id' Hid'. rewrite lookup_insert_ne by done.
    rewrite lookup_alter_ne by done. apply Hfiles.
Qed.

End EventProperties.

(* ===================================================================== *)
(** ** The further properties at concrete inputs *)
(* ===================================================================== *)

Lemma validate_same_suffix_witness :
  asciiToLowerCase "PNG" = asciiToLowerCase "png" /\
  exists sf sg,
    @validateFileInput asciiStrings sheetExtensions
      (selected [{| name := "Scan.PNG"; size := 1000 |}]) = (Normal tt, sf) /\
    @validateFileInput asciiStrings sheetExtensions
      (selected [{| name := "report.v2.png"; size := 1000 |}; hugeDocx]) = (Normal tt, sg) /\
    alerts sf = alerts sg /\
    (files (input sf) = [] <-> files (input sg) = []).
Proof.
  split; [reflexivity|].
  apply (@validate_same_suffix asciiStrings sheetExtensions
           {| name := "Scan.PNG"; size := 1000 |} {| name := "report.v2.png"; size := 1000 |}
           "Scan" "report.v2" "PNG" "png" [] [hugeDocx] [] []); reflexivity.
Defined.

Lemma validate_accepts_dotless_witness :
  occurs "." "PDF" = false /\
  @validateFileInput asciiStrings sheetExtensions (selected [{| name := "PDF"; size := 10 |}])
    = (Normal tt, selected [{| name := "PDF"; size := 10 |}]).
Proof.
  split; [reflexivity|].
  apply (@validate_accepts_dotless asciiStrings sheetExtensions
           (selected [{| name := "PDF"; size := 10 |}]) {| name := "PDF"; size := 10 |} []).
  - reflexivity.
  - reflexivity.
  - apply includes_elem_of. reflexivity.
  - vm_compute. discriminate.
Defined.

Lemma sheet_kept_then_key_kept_witness :
  @validateFileInput asciiStrings sheetExtensions (selected [scanPng])
    = (Normal tt, selected [scanPng]) /\
  @validateFileInput asciiStrings keyExtensions (selected [scanPng])
    = (Normal tt, selected [scanPng]).
Proof.
  split; [reflexivity|].
  apply (@sheet_kept_then_key_kept asciiStrings (selected [scanPng])). reflexivity.
Defined.


Lemma auto_close_clicks_per_banner_witness :
  timers nestedPage = [] /\
  exists w1 w2,
    onDOMContentLoaded nestedPage = (Normal tt, w1) /\
    elapse 5000 w1 = ([Normal tt; Normal tt; Normal tt], w2) /\
    buttons w2 !! 0%nat = Some {| clicks := 2 |} /\
    buttons w2 !! 1%nat = Some {| clicks := 1 |} /\
    timers w2 = [].
Proof.
  split; [reflexivity|].
  destruct (auto_close_clicks_per_banner nestedPage eq_refl)
    as (w1 & w2 & Hinit & Helapse & Hbuttons & _ & Htimers & _).
  exists w1, w2. split; [exact Hinit|]. split; [exact Helapse|].
  split; [exact (Hbuttons 0%nat)|]. split; [exact (Hbuttons 1%nat)|]. exact Htimers.
Defined.

Lemma auto_close_not_early_witness :
  (4999 < 5000)%N /\
  exists w1 w2 w3,
    onDOMContentLoaded uploadPage = (Normal tt, w1) /\
    elapse 4999 w1 = ([], w2) /\
    buttons w2 = [ {| clicks := 0 |} ] /\
    elapse 1 w2 = ([Normal tt; Normal tt], w3) /\
    buttons w3 !! 0%nat = Some {| clicks := 1 |}.
Proof.
  split; [reflexivity|].
  destruct (auto_close_not_early uploadPage 4999 eq_refl eq_refl)
    as (w1 & w2 & w3 & Hinit & Hearly & _ & Hsame & _ & Hlate & Hbuttons & _).
  exists w1, w2, w3. split; [exact Hinit|]. split; [exact Hearly|].
  split; [exact Hsame|]. split; [exact Hlate|]. exact (Hbuttons 0%nat).
Defined.

Lemma selection_is_validated_witness :
  elements uploadPage !! "answer_sheet" = Some {| files := []; listeners := [] |} /\
  exists w1 w2,
    onDOMContentLoaded uploadPage = (Normal tt, w1) /\
    @userSelects asciiStrings "answer_sheet" [hugeDocx] w1 = (Normal tt, w2) /\
    files <$> elements w2 !! "answer_sheet" = Some [] /\
    dialogs w2 = [typeAlert sheetExtensions; sizeAlert].
Proof.
  split; [reflexivity|].
  destruct (@selection_is_validated asciiStrings uploadPage "answer_sheet" sheetExtensions
              {| files := []; listeners := [] |} [hugeDocx]
              (or_introl (conj eq_refl eq_refl)) eq_refl eq_refl)
    as (w1 & w2 & s' & Hinit & Hselect & Hval & Hcontrol & Hdialogs & _).
  exists w1, w2. split; [exact Hinit|]. split; [exact Hselect|].
  vm_compute in Hval. injection Hval as <-.
  rewrite Hcontrol, Hdialogs. split; reflexivity.
Defined.
